(** * The session scheme of the authentication guard

    A shallow embedding of [src/Schemes/Session.js] (class [SessionScheme])
    and the properties of its state machine: [remember], [validate],
    [attempt], [login], [logout], [check] and [getUser].

    JavaScript values are modelled by a small universe ([prim], [value]);
    the guard object, the request context and the user provider are the
    fields of one record ([World]) that every method threads explicitly.
    A method that can throw returns an [outcome]: the state reached when the
    exception is thrown is kept, as in JavaScript (there is no roll-back).

    The methods are [async]. A call that is awaited is a call that has run
    to its end when the caller goes on, so awaited calls compose
    sequentially. The one call that is not awaited, [this.login(user)] in
    [check], is run up to its first [await] and left suspended there
    ([login_start], [login_detached], [resume]).

    What the scheme relies on and the sources do not contain: the parent
    class [./Base] and [../Exceptions] are taken from the spec; the packages
    [resetable], [ms] and [uuid], the serializer and the request context are
    collaborators, given by their interface. [ms] may throw on the string
    it is given, and [remember] with it. The calls of the serializer and of
    the request context are taken to answer: their own failures (I/O) are
    outside this development. *)

From Stdlib Require Import ZArith.
From stdpp Require Import base option gmap strings pretty list fin_maps.

Local Open Scope Z_scope.
Local Open Scope string_scope.

(** ** JavaScript values *)

(** Primitive values. Numbers are the integers (durations in milliseconds,
    numeric keys) and [NaN]. *)
Inductive prim : Type :=
| PUndefined
| PNull
| PBool (b : bool)
| PNum (n : Z)
| PNaN
| PStr (s : string).

(** A value is a primitive or an object; the only objects the scheme handles
    are users, records of named primitive attributes. *)
Inductive value : Type :=
| VPrim (p : prim)
| VObj (o : gmap string prim).

Coercion VPrim : prim >-> value.

Abbreviation undefined := (VPrim PUndefined).
Abbreviation null := (VPrim PNull).

(** [ToBoolean]: what [if (v)], [!v] and [!!v] test. *)
Definition truthy_prim (p : prim) : bool :=
  match p with
  | PUndefined | PNull | PNaN => false
  | PBool b => b
  | PNum n => negb (Z.eqb n 0)
  | PStr s => negb (String.eqb s "")
  end.

Definition truthy (v : value) : bool :=
  match v with
  | VPrim p => truthy_prim p
  | VObj _ => true
  end.

(** [v === p] for a primitive constant [p] that is not [NaN]. *)
Definition strict_eq (v : value) (p : prim) : bool :=
  match v, p with
  | VPrim PUndefined, PUndefined => true
  | VPrim PNull, PNull => true
  | VPrim (PBool a), PBool b => Bool.eqb a b
  | VPrim (PNum a), PNum b => Z.eqb a b
  | VPrim (PStr a), PStr b => String.eqb a b
  | _, _ => false
  end.

(** [typeof v === 'string'] *)
Definition is_string (v : value) : option string :=
  match v with
  | VPrim (PStr s) => Some s
  | _ => None
  end.

(** [a || d] on an optional configuration string. *)
Definition or_default (a : option string) (d : string) : string :=
  match a with
  | Some s => if String.eqb s "" then d else s
  | None => d
  end.

(** ** Exceptions

    Modelled from the spec: [../Exceptions] ([CE]) is absent; these are the
    failure kinds of the spec under the names [Session.js] raises them by:
    UserNotFound, PasswordMismatch, AlreadyAuthenticated
    ([RuntimeException.authenticatedInstance]) and MissingIdentifier
    ([RuntimeException.missingUid]). [TypeError] is JavaScript's own, and
    [Error] is what a package throws ([ms] on a string it refuses). *)
Inductive exn : Type :=
| UserNotFoundException (message : string)
| PasswordMisMatchException (message : string)
| RuntimeException_authenticatedInstance
| RuntimeException_missingUid
| TypeError
| Error (message : string).

Inductive outcome (A : Type) : Type :=
| Returned (a : A)
| Threw (e : exn).

Arguments Returned {A} a.
Arguments Threw {A} e.

(** ** The [resetable] holder

    [new Resetable(v)] keeps an initial value; [set] replaces the current
    value, [pull] returns the current value and puts the initial one back. *)
Module Resetable.

Record t : Type := make { initialValue : value; currentValue : value }.

Definition new (v : value) : t := make v v.

Definition get (r : t) : value := currentValue r.

Definition set (v : value) (r : t) : t := make (initialValue r) v.

Definition clear (r : t) : t := make (initialValue r) (initialValue r).

Definition pull (r : t) : value * t := (get r, clear r).

End Resetable.

(** ** Collaborators *)

(** The [ms] package: a duration string to milliseconds, [undefined] when the
    string is not a duration; it throws on a string it refuses (from its
    version 2 on, the empty string). [ms('5y')] is five years of 365.25
    days. *)
Record MsLib : Type := {
  ms : string → outcome value;
  ms_5y : ms "5y" = Returned (VPrim (PNum 157788000000))
}.

(** The [uuid] package: [v4 n] is the [n]-th identifier drawn; a UUID is a
    non-empty string. *)
Record UuidLib : Type := {
  v4 : nat → string;
  v4_nonempty : ∀ n, v4 n ≠ ""
}.

(** The serializer (user provider) over a store [DB]. Look-ups answer a user
    or nothing ([null]). *)
Record Serializer (DB : Type) : Type := {
  primaryKey : string;
  findByUid : DB → string → option (gmap string prim);
  validateCredentails : DB → value → string → bool;
  findById : DB → prim → option (gmap string prim);
  findByRememberToken : DB → prim → option (gmap string prim);
  saveRememberToken : DB → value → value → DB
}.

Arguments primaryKey {DB} _.
Arguments findByUid {DB} _ _ _.
Arguments validateCredentails {DB} _ _ _ _.
Arguments findById {DB} _ _ _.
Arguments findByRememberToken {DB} _ _ _.
Arguments saveRememberToken {DB} _ _ _ _.

(** [includes sub s]: the text [sub] occurs in [s]. *)
Definition includes (sub s : string) : Prop :=
  ∃ pre post, s = pre +:+ sub +:+ post.

(** What a look-up hands back to JavaScript. *)
Definition of_lookup (r : option (gmap string prim)) : value :=
  match r with
  | Some u => VObj u
  | None => null
  end.

(** [this._config] *)
Record Config : Type := {
  cfg_uid : string;
  cfg_sessionKey : option string;
  cfg_rememberMeToken : option string
}.

(** A cookie written on the response. *)
Inductive cookie : Type :=
| SetCookie (v : value) (expires : value)
| ClearCookie.

(** A [login] call suspended at [await saveRememberToken(...)]: its local
    variables. *)
Record Frame : Type := {
  fr_user : value;
  fr_rememberToken : value;
  fr_duration : value
}.

(** How far a call of an [async] function got: to its end, or to an
    [await]. *)
Inductive progress (A : Type) : Type :=
| Finished (r : outcome A)
| Awaiting (f : Frame).

Arguments Finished {A} r.
Arguments Awaiting {A} f.

(** [String(p)], as a template literal prints a primitive (an integer in
    full, as JavaScript does below 1e21). *)
Definition to_string (p : prim) : string :=
  match p with
  | PUndefined => "undefined"
  | PNull => "null"
  | PBool true => "true"
  | PBool false => "false"
  | PNum n => pretty n
  | PNaN => "NaN"
  | PStr s => s
  end.

(** ** The scheme and its environment *)

Section SessionScheme.

Context {DB : Type}.
Variable serializer : Serializer DB.
Variable mslib : MsLib.
Variable uuid : UuidLib.

(** Modelled from the spec: the guard's own fields, which the absent parent
    class [./Base] declares, are the spec's GuardState: [user] (nullable)
    and [viaRemember] (a boolean), created empty. No line of [Session.js]
    assigns [viaRemember].

    The other fields are what the methods of [Session.js] reach from the
    guard: the duration holder, the configuration, the provider's store and
    the request context. *)
Record World : Type := {
  (* this *)
  user : value;
  viaRemember : bool;
  _rememberTokenDuration : Resetable.t;
  _config : Config;
  (* the store behind this._serializerInstance *)
  db : DB;
  (* this._ctx.session, this._ctx.request, this._ctx.response *)
  session : gmap string prim;
  request_cookies : gmap string prim;
  response_cookies : gmap string cookie;
  (* identifiers drawn from uuid.v4 so far *)
  uuid_drawn : nat;
  (* login calls nobody awaits, suspended at their await, oldest first *)
  suspended : list Frame
}.

Definition with_user (v : value) (w : World) : World :=
  {| user := v; viaRemember := viaRemember w;
     _rememberTokenDuration := _rememberTokenDuration w;
     _config := _config w; db := db w; session := session w;
     request_cookies := request_cookies w;
     response_cookies := response_cookies w;
     uuid_drawn := uuid_drawn w; suspended := suspended w |}.

Definition with_duration (r : Resetable.t) (w : World) : World :=
  {| user := user w; viaRemember := viaRemember w;
     _rememberTokenDuration := r;
     _config := _config w; db := db w; session := session w;
     request_cookies := request_cookies w;
     response_cookies := response_cookies w;
     uuid_drawn := uuid_drawn w; suspended := suspended w |}.

Definition with_db (d : DB) (w : World) : World :=
  {| user := user w; viaRemember := viaRemember w;
     _rememberTokenDuration := _rememberTokenDuration w;
     _config := _config w; db := d; session := session w;
     request_cookies := request_cookies w;
     response_cookies := response_cookies w;
     uuid_drawn := uuid_drawn w; suspended := suspended w |}.

Definition with_session (m : gmap string prim) (w : World) : World :=
  {| user := user w; viaRemember := viaRemember w;
     _rememberTokenDuration := _rememberTokenDuration w;
     _config := _config w; db := db w; session := m;
     request_cookies := request_cookies w;
     response_cookies := response_cookies w;
     uuid_drawn := uuid_drawn w; suspended := suspended w |}.

Definition with_response (m : gmap string cookie) (w : World) : World :=
  {| user := user w; viaRemember := viaRemember w;
     _rememberTokenDuration := _rememberTokenDuration w;
     _config := _config w; db := db w; session := session w;
     request_cookies := request_cookies w;
     response_cookies := m;
     uuid_drawn := uuid_drawn w; suspended := suspended w |}.

Definition with_uuid (n : nat) (w : World) : World :=
  {| user := user w; viaRemember := viaRemember w;
     _rememberTokenDuration := _rememberTokenDuration w;
     _config := _config w; db := db w; session := session w;
     request_cookies := request_cookies w;
     response_cookies := response_cookies w;
     uuid_drawn := n; suspended := suspended w |}.

Definition with_suspended (l : list Frame) (w : World) : World :=
  {| user := user w; viaRemember := viaRemember w;
     _rememberTokenDuration := _rememberTokenDuration w;
     _config := _config w; db := db w; session := session w;
     request_cookies := request_cookies w;
     response_cookies := response_cookies w;
     uuid_drawn := uuid_drawn w; suspended := l |}.

(** A method: it reads and writes the world and returns or throws. *)
Definition M (A : Type) : Type := World → outcome A * World.

(** [constructor]: [this._rememberTokenDuration = new Resetable(0)], and an
    empty GuardState. *)
Definition constructed (w : World) : Prop :=
  user w = null ∧ viaRemember w = false ∧
  _rememberTokenDuration w = Resetable.new (VPrim (PNum 0)) ∧
  suspended w = [].

(** [this.user], for where a parameter is called [user] too. *)
Abbreviation this_user := user.

(** [get sessionKey] *)
Definition sessionKey (w : World) : string :=
  or_default (cfg_sessionKey (_config w)) "adonis-auth".

(** [get remeberTokenKey] *)
Definition remeberTokenKey (w : World) : string :=
  or_default (cfg_rememberMeToken (_config w)) "adonis-remember-token".

(** Modelled from the spec: the getter [primaryKeyValue] of the absent
    [./Base], the primary-key value of the guard's user: the attribute
    the serializer names, [undefined] when the user has none; reading an
    attribute of [null] or [undefined] is a [TypeError]. *)
Definition primaryKeyValue (w : World) : outcome prim :=
  match user w with
  | VObj o => Returned (default PUndefined (o !! primaryKey serializer))
  | VPrim PUndefined | VPrim PNull => Threw TypeError
  | VPrim _ => Returned PUndefined
  end.

(** [this._ctx.session.get(key)] and [this._ctx.request.cookie(key)] *)
Definition session_get (key : string) (w : World) : prim :=
  default PUndefined (session w !! key).

Definition request_cookie (key : string) (w : World) : prim :=
  default PUndefined (request_cookies w !! key).

(** [_setSession (primaryKeyValue, rememberToken, duration)] *)
Definition _setSession (pkv : prim) (rememberToken duration : value)
    (w : World) : World :=
  let w := with_session (<[sessionKey w := pkv]> (session w)) w in
  if truthy rememberToken && truthy duration then
    with_response
      (<[remeberTokenKey w := SetCookie rememberToken duration]>
         (response_cookies w)) w
  else w.

(** [_removeSession ()] *)
Definition _removeSession (w : World) : World :=
  let w := with_session (delete (sessionKey w) (session w)) w in
  with_response (<[remeberTokenKey w := ClearCookie]> (response_cookies w)) w.

(** [remember (duration)]; it returns [this]. Where [ms] throws, [set] is
    not reached. *)
Definition remember (duration : value) : M unit :=
  λ w,
  let set v := with_duration (Resetable.set v (_rememberTokenDuration w)) w in
  if strict_eq duration (PBool true) || strict_eq duration (PNum 1) then
    match ms mslib "5y" with
    | Returned v => (Returned tt, set v)
    | Threw e => (Threw e, w)
    end
  else match is_string duration with
  | Some s =>
    match ms mslib s with
    | Returned v => (Returned tt, set v)
    | Threw e => (Threw e, w)
    end
  | None =>
    if negb (strict_eq duration (PNum 0)) && negb (strict_eq duration (PBool false))
    then (Returned tt, set duration)
    else (Returned tt, w)
  end.

(** [validate (uid, password, returnUser)] *)
Definition validate (uid password : string) (returnUser : value) : M value :=
  λ w,
  let user := of_lookup (findByUid serializer (db w) uid) in
  if negb (truthy user) then
    (Threw (UserNotFoundException
              ("Cannot find user with " +:+ cfg_uid (_config w) +:+ " as " +:+ uid)), w)
  else
    let validated := validateCredentails serializer (db w) user password in
    if negb validated then
      (Threw (PasswordMisMatchException "Cannot verify user password"), w)
    else
      (Returned (if truthy returnUser then user else VPrim (PBool (truthy user))), w).

(** *** [login]

    [login] is an [async] function with one [await], at
    [saveRememberToken]. A caller that awaits [login] sees it run to its
    end; [check] calls it without awaiting, and then sees only the part
    before the [await]. The body is therefore given in two parts. *)

(** From after the [await] to the end: [_setSession] with the guard's
    primary-key value as it is then, and [return user]. *)
Definition login_finish (user rememberToken duration : value) : M value :=
  λ w,
  match primaryKeyValue w with
  | Threw e => (Threw e, w)
  | Returned pkv => (Returned user, _setSession pkv rememberToken duration w)
  end.

(** From the call to the [await]; with no remember token there is no
    [await] and the call runs to its end. *)
Definition login_start (user : value) (w : World) : progress value * World :=
  if truthy (this_user w) then
    (Finished (Threw RuntimeException_authenticatedInstance), w)
  else
    let w := with_user user w in
    match primaryKeyValue w with
    | Threw e => (Finished (Threw e), w)
    | Returned pkv =>
      if negb (truthy_prim pkv) then
        (Finished (Threw RuntimeException_missingUid), w)
      else
        let '(duration, r) := Resetable.pull (_rememberTokenDuration w) in
        let w := with_duration r w in
        let '(rememberToken, w) :=
          if truthy duration
          then (VPrim (PStr (v4 uuid (uuid_drawn w))), with_uuid (S (uuid_drawn w)) w)
          else (null, w) in
        if truthy rememberToken then
          let w := with_db (saveRememberToken serializer (db w) user rememberToken) w in
          (Awaiting {| fr_user := user; fr_rememberToken := rememberToken;
                       fr_duration := duration |}, w)
        else
          let '(r, w) := login_finish user rememberToken duration w in
          (Finished r, w)
    end.

(** [login (user)], awaited. *)
Definition login (user : value) : M value :=
  λ w,
  match login_start user w with
  | (Finished r, w) => (r, w)
  | (Awaiting f, w) =>
    login_finish (fr_user f) (fr_rememberToken f) (fr_duration f) w
  end.

(** [this.login(user)] as a statement, not awaited: the promise is dropped
    (so is its rejection); a call that reached its [await] stays
    suspended. *)
Definition login_detached (user : value) (w : World) : World :=
  match login_start user w with
  | (Finished _, w) => w
  | (Awaiting f, w) => with_suspended (suspended w ++ [f]) w
  end.

(** The event loop resumes the oldest suspended [login]; nobody holds its
    promise. It runs between two calls of the guard's caller. *)
Definition resume (w : World) : World :=
  match suspended w with
  | [] => w
  | f :: fs =>
    snd (login_finish (fr_user f) (fr_rememberToken f) (fr_duration f)
           (with_suspended fs w))
  end.

(** [attempt (uid, password)] *)
Definition attempt (uid password : string) : M value :=
  λ w,
  match validate uid password (VPrim (PBool true)) w with
  | (Threw e, w) => (Threw e, w)
  | (Returned user, w) => login user w
  end.

(** [loginViaId (id)] *)
Definition loginViaId (id : prim) : M value :=
  λ w,
  let user := of_lookup (findById serializer (db w) id) in
  if negb (truthy user) then
    (Threw (UserNotFoundException
              ("Cannot find user with " +:+ primaryKey serializer +:+ " as "
                 +:+ to_string id)), w)
  else login user w.

(** [logout ()] *)
Definition logout (w : World) : World :=
  let w := with_user null w in
  _removeSession w.

(** [check ()] *)
Definition check : M bool :=
  λ w,
  if truthy (user w) then (Returned true, w)
  else
    let sessionValue := session_get (sessionKey w) w in
    let rememberMeToken := request_cookie (remeberTokenKey w) w in
    if truthy_prim sessionValue then
      let w := with_user (of_lookup (findById serializer (db w) sessionValue)) w in
      (Returned (truthy (user w)), w)
    else if truthy_prim rememberMeToken then
      let user := of_lookup (findByRememberToken serializer (db w) rememberMeToken) in
      let w := if truthy user then login_detached user w else w in
      (Returned (truthy user), w)
    else (Returned false, w).

(** [getUser ()] *)
Definition getUser : M value :=
  λ w,
  match check w with
  | (Threw e, w) => (Threw e, w)
  | (Returned _, w) => (Returned (user w), w)
  end.

(** *** What the guard's caller can do

    The caller invokes methods one after the other, awaiting each; between
    two of them the event loop may resume a suspended [login]. *)
Inductive event : Type :=
| ev_remember (duration : value)
| ev_validate (uid password : string) (returnUser : value)
| ev_attempt (uid password : string)
| ev_login (user : value)
| ev_loginViaId (id : prim)
| ev_logout
| ev_check
| ev_getUser
| ev_resume.

Definition after (e : event) (w : World) : World :=
  match e with
  | ev_remember duration => snd (remember duration w)
  | ev_validate uid password returnUser => snd (validate uid password returnUser w)
  | ev_attempt uid password => snd (attempt uid password w)
  | ev_login user => snd (login user w)
  | ev_loginViaId id => snd (loginViaId id w)
  | ev_logout => logout w
  | ev_check => snd (check w)
  | ev_getUser => snd (getUser w)
  | ev_resume => resume w
  end.

Definition run (es : list event) (w : World) : World :=
  foldl (λ w e, after e w) w es.

(** The states a guard goes through, from its construction on. *)
Inductive reachable : World → Prop :=
| reachable_constructed w : constructed w → reachable w
| reachable_after e w : reachable w → reachable (after e w).

Definition is_remember (e : event) : bool :=
  match e with
  | ev_remember _ => true
  | _ => false
  end.

(** The duration [login] would pull. *)
Definition pending (w : World) : value :=
  Resetable.get (_rememberTokenDuration w).

(** Resume every suspended [login], oldest first. *)
Definition settle (w : World) : World :=
  Nat.iter (length (suspended w)) resume w.

(** *** Vocabulary of the properties *)

(** The primary-key value a user object carries: the attribute the
    serializer names, [undefined] when there is none. *)
Definition key_of (o : gmap string prim) : prim :=
  default PUndefined (o !! primaryKey serializer).

(** What no method writes: [viaRemember], the initial value of the
    duration holder, the configuration and the request. *)
Definition untouched (w w' : World) : Prop :=
  viaRemember w' = viaRemember w ∧
  Resetable.initialValue (_rememberTokenDuration w')
  = Resetable.initialValue (_rememberTokenDuration w) ∧
  _config w' = _config w ∧
  request_cookies w' = request_cookies w.

(** No remember token was minted between [w] and [w']: nothing drawn from
    [uuid], nothing saved by the provider, no cookie written. *)
Definition nothing_minted (w w' : World) : Prop :=
  uuid_drawn w' = uuid_drawn w ∧ db w' = db w ∧
  response_cookies w' = response_cookies w.

(** The composition the spec words [attempt] as: resolve the user by
    [uid], verify the password, then [login] the resolved user; the first
    failure is the result. *)
Definition validate_then_login (uid password : string) : M value :=
  λ w,
  match findByUid serializer (db w) uid with
  | None =>
    (Threw (UserNotFoundException
              ("Cannot find user with " +:+ cfg_uid (_config w) +:+ " as " +:+ uid)), w)
  | Some o =>
    if validateCredentails serializer (db w) (VObj o) password
    then login (VObj o) w
    else (Threw (PasswordMisMatchException "Cannot verify user password"), w)
  end.

End SessionScheme.

(** ** A concrete environment

    An in-memory provider over a table of users keyed by ["id"], looked up
    by ["email"], with the password in clear in ["password"] (the hashing is
    the provider's business) and the token in ["remember_token"]. It is used
    to run the scheme on examples. *)
Module Demo.

#[global] Instance prim_eq_dec : EqDecision prim.
Proof. solve_decision. Defined.

Definition has (k : string) (p : prim) (row : gmap string prim) : bool :=
  bool_decide (row !! k = Some p).

Definition token_of (v : value) : prim :=
  match v with
  | VPrim p => p
  | VObj _ => PUndefined
  end.

Definition save (rows : list (gmap string prim)) (user token : value)
    : list (gmap string prim) :=
  match user with
  | VObj o =>
    (λ row, if bool_decide (row !! "id" = o !! "id")
            then <["remember_token" := token_of token]> row else row) <$> rows
  | VPrim _ => rows
  end.

Definition serializer : Serializer (list (gmap string prim)) := {|
  primaryKey := "id";
  findByUid rows uid := List.find (has "email" (PStr uid)) rows;
  validateCredentails rows user password :=
    match user with
    | VObj o => has "password" (PStr password) o
    | VPrim _ => false
    end;
  findById rows id := List.find (has "id" id) rows;
  findByRememberToken rows token := List.find (has "remember_token" token) rows;
  saveRememberToken := save
|}.

(** A stand-in for [ms] that knows three spellings and refuses the empty
    string. *)
Definition ms_table (s : string) : outcome value :=
  if String.eqb s "" then Threw (Error "val is not a non-empty string or a valid number")
  else if String.eqb s "5y" then Returned (VPrim (PNum 157788000000))
  else if String.eqb s "2 days" then Returned (VPrim (PNum 172800000))
  else if String.eqb s "1h" then Returned (VPrim (PNum 3600000))
  else Returned undefined.

Definition mslib : MsLib := {| ms := ms_table; ms_5y := eq_refl |}.

(** A stand-in for [uuid.v4]: distinct non-empty strings. *)
Definition uuid_of (n : nat) : string := "uuid-" +:+ pretty n.

Definition uuid : UuidLib :=
  {| v4 := uuid_of; v4_nonempty := λ n, ltac:(discriminate) |}.

Definition alice : gmap string prim :=
  {[ "id" := PNum 1; "email" := PStr "alice"; "password" := PStr "correct-pw" ]}.

Definition bob : gmap string prim :=
  {[ "id" := PNum 2; "email" := PStr "bob"; "password" := PStr "hunter2";
     "remember_token" := PStr "bob-token" ]}.

(** A row without a primary key, and one whose key is [null]. *)
Definition ghost : gmap string prim :=
  {[ "email" := PStr "ghost"; "password" := PStr "boo";
     "remember_token" := PStr "ghost-token" ]}.

Definition nobody : gmap string prim :=
  {[ "id" := PNull; "email" := PStr "nobody"; "password" := PStr "none" ]}.

Definition rows : list (gmap string prim) := [alice; bob; ghost; nobody].

Definition config : Config :=
  {| cfg_uid := "email"; cfg_sessionKey := None; cfg_rememberMeToken := None |}.

(** The guard of a request that carries the session [s] and the cookies
    [c], just constructed. *)
Definition fresh (s c : gmap string prim) : World :=
  {| user := null; viaRemember := false;
     _rememberTokenDuration := Resetable.new (VPrim (PNum 0));
     _config := config; db := rows; session := s; request_cookies := c;
     response_cookies := ∅; uuid_drawn := 0; suspended := [] |}.

Definition anonymous : World := fresh ∅ ∅.

(** Requests of a client that holds the session of alice, a session whose
    user is gone, the remember token of bob, and that of ghost. *)
Definition returning_alice : World := fresh {[ "adonis-auth" := PNum 1 ]} ∅.

Definition stale : World := fresh {[ "adonis-auth" := PNum 99 ]} ∅.

Definition returning_bob : World :=
  fresh ∅ {[ "adonis-remember-token" := PStr "bob-token" ]}.

Definition returning_ghost : World :=
  fresh ∅ {[ "adonis-remember-token" := PStr "ghost-token" ]}.

(** The guard after [login(alice)], and after [remember(true)]. *)
Definition logged_in : World :=
  snd (login serializer uuid (VObj alice) anonymous).

Definition remembering : World :=
  snd (remember mslib (VPrim (PBool true)) anonymous).

End Demo.

(** ** Properties *)

Lemma append_assoc (a b c : string) : (a +:+ b) +:+ c = a +:+ b +:+ c.
Proof.
  induction a as [|x a IH]; [done|].
  change (String x ((a +:+ b) +:+ c) = String x (a +:+ b +:+ c)).
  by rewrite IH.
Qed.

Lemma append_empty_r (a : string) : a +:+ "" = a.
Proof.
  induction a as [|x a IH]; [done|].
  change (String x (a +:+ "") = String x a). by rewrite IH.
Qed.

Lemma includes_middle (pre sub post : string) : includes sub (pre +:+ sub +:+ post).
Proof. by exists pre, post. Qed.

Lemma includes_self (sub : string) : includes sub sub.
Proof. exists "", "". by rewrite append_empty_r. Qed.

Lemma includes_app_l (p sub s : string) : includes sub s → includes sub (p +:+ s).
Proof.
  intros (pre & post & ->). exists (p +:+ pre), post. by rewrite append_assoc.
Qed.

Section Properties.

Context {DB : Type}.
Variable serializer : Serializer DB.
Variable mslib : MsLib.
Variable uuid : UuidLib.

Implicit Types (w : @World DB) (o : gmap string prim) (u : value).

(** *** The two parts of [login], case by case *)

Lemma login_start_authenticated u w :
  truthy (user w) = true →
  login_start serializer uuid u w
  = (Finished (Threw RuntimeException_authenticatedInstance), w).
Proof. intros H. unfold login_start. by rewrite H. Qed.

Lemma login_start_TypeError u w e :
  truthy (user w) = false →
  primaryKeyValue serializer (with_user u w) = Threw e →
  login_start serializer uuid u w = (Finished (Threw e), with_user u w).
Proof. intros H K. unfold login_start. by rewrite H, K. Qed.

Lemma login_start_missingUid u w pkv :
  truthy (user w) = false →
  primaryKeyValue serializer (with_user u w) = Returned pkv →
  truthy_prim pkv = false →
  login_start serializer uuid u w
  = (Finished (Threw RuntimeException_missingUid), with_user u w).
Proof. intros H K F. unfold login_start. by rewrite H, K, F. Qed.

(** With nothing pending no token is drawn and the call does not wait. *)
Lemma login_start_plain u w pkv :
  truthy (user w) = false →
  primaryKeyValue serializer (with_user u w) = Returned pkv →
  truthy_prim pkv = true →
  truthy (pending w) = false →
  login_start serializer uuid u w
  = (Finished (Returned u),
     _setSession pkv null (pending w)
       (with_duration (Resetable.clear (_rememberTokenDuration w)) (with_user u w))).
Proof.
  intros H K T P. unfold login_start. rewrite H, K, T. simpl.
  fold (pending w). rewrite P. simpl.
  unfold login_finish.
  change (primaryKeyValue serializer (with_duration _ (with_user u w)))
    with (primaryKeyValue serializer (with_user u w)).
  by rewrite K.
Qed.

(** With a duration pending a token is drawn and saved, and the call
    waits. *)
Lemma login_start_remember u w pkv :
  truthy (user w) = false →
  primaryKeyValue serializer (with_user u w) = Returned pkv →
  truthy_prim pkv = true →
  truthy (pending w) = true →
  let token := VPrim (PStr (v4 uuid (uuid_drawn w))) in
  login_start serializer uuid u w
  = (Awaiting {| fr_user := u; fr_rememberToken := token; fr_duration := pending w |},
     with_db (saveRememberToken serializer (db w) u token)
       (with_uuid (S (uuid_drawn w))
          (with_duration (Resetable.clear (_rememberTokenDuration w))
             (with_user u w)))).
Proof.
  intros H K T P token. unfold login_start. rewrite H, K, T. simpl.
  fold (pending w). rewrite P. simpl.
  destruct (String.eqb_spec (v4 uuid (uuid_drawn w)) "") as [E|_]; [|done].
  by destruct (v4_nonempty uuid _ E).
Qed.

(** *** What no method touches

    [viaRemember] and the initial value of the duration holder are written
    by no method, so they keep the values the constructor gave them. *)

Ltac unfold_methods :=
  unfold after, getUser, check, login_detached, loginViaId, attempt, login,
    validate, logout, remember, resume, login_start, login_finish,
    _setSession, _removeSession, Resetable.pull, Resetable.set,
    Resetable.clear, Resetable.get.

Lemma after_untouched e w : untouched w (after serializer mslib uuid e w).
Proof.
  unfold untouched; destruct e; unfold_methods;
    repeat (simpl; case_match); simpl; simplify_eq; simpl; done.
Qed.

Lemma reachable_viaRemember w :
  reachable serializer mslib uuid w → viaRemember w = false.
Proof.
  induction 1 as [w (_ & H & _)|e w _ IH]; [done|].
  by destruct (after_untouched e w) as (-> & _).
Qed.

Lemma reachable_initialValue w :
  reachable serializer mslib uuid w →
  Resetable.initialValue (_rememberTokenDuration w) = VPrim (PNum 0).
Proof.
  induction 1 as [w (_ & _ & H & _)|e w _ IH]; [by rewrite H|].
  by destruct (after_untouched e w) as (_ & -> & _).
Qed.

(** *** [login] *)

Lemma primaryKeyValue_object o w :
  primaryKeyValue serializer (with_user (VObj o) w) = Returned (key_of serializer o).
Proof. done. Qed.

Lemma key_of_absent o : o !! primaryKey serializer = None → truthy_prim (key_of serializer o) = false.
Proof. unfold key_of. by intros ->. Qed.

Lemma key_of_null o : o !! primaryKey serializer = Some PNull → truthy_prim (key_of serializer o) = false.
Proof. unfold key_of. by intros ->. Qed.

(** A user without a usable key is refused, after it was assigned. *)
Lemma login_missingUid o w :
  truthy (user w) = false →
  truthy_prim (key_of serializer o) = false →
  login serializer uuid (VObj o) w
  = (Threw RuntimeException_missingUid, with_user (VObj o) w).
Proof.
  intros H K. unfold login.
  by rewrite (login_start_missingUid _ _ (key_of serializer o)).
Qed.

(** A [login] that returns has returned its argument, which is now the
    guard's user, and an object. *)
Lemma login_returned u w r w' :
  login serializer uuid u w = (Returned r, w') →
  r = u ∧ user w' = u ∧ truthy u = true ∧ truthy (user w) = false.
Proof.
  unfold login, login_start, login_finish, primaryKeyValue, _setSession,
    Resetable.pull.
  destruct (truthy (user w)) eqn:Hu; [done|].
  destruct u as [[]|]; repeat (simpl; case_match); simpl;
    intros; simplify_eq; done.
Qed.

(** Two [login] in a row: the second is refused and the guard's user is
    the first one's. *)
Lemma login_twice u1 u2 w0 r w1 :
  login serializer uuid u1 w0 = (Returned r, w1) →
  login serializer uuid u2 w1 = (Threw RuntimeException_authenticatedInstance, w1) ∧
  user w1 = u1.
Proof.
  intros L. destruct (login_returned _ _ _ _ L) as (_ & U & T & _).
  split; [|done]. unfold login. rewrite login_start_authenticated; [done|].
  by rewrite U.
Qed.

(** C1: in every state where the guard's user is set, [login(user2)]
    throws the already-authenticated exception and changes nothing: the
    guard's user, and with it the whole state (session included), is what
    it was before the call. *)
Theorem login_already_authenticated u2 w :
  truthy (user w) = true →
  login serializer uuid u2 w = (Threw RuntimeException_authenticatedInstance, w)
  ∧ user (snd (login serializer uuid u2 w)) = user w
  ∧ session (snd (login serializer uuid u2 w)) = session w.
Proof.
  intros H. unfold login. by rewrite login_start_authenticated.
Qed.

(** C2, as the code has it: [login] assigns the guard's user before it
    looks at the primary key. On a guard with no user, for every user whose
    primary-key value is null or absent (or otherwise falsy), [login] throws
    the missing-key exception and the guard's user is that user from then
    on; nothing else has changed: the session is not written and the
    pending duration is not consumed. *)
Theorem login_missing_key o w :
  truthy (user w) = false →
  truthy_prim (key_of serializer o) = false →
  login serializer uuid (VObj o) w
  = (Threw RuntimeException_missingUid, with_user (VObj o) w) ∧
  user (snd (login serializer uuid (VObj o) w)) = VObj o ∧
  session (snd (login serializer uuid (VObj o) w)) = session w ∧
  pending (snd (login serializer uuid (VObj o) w)) = pending w.
Proof.
  intros H K. by rewrite login_missingUid.
Qed.

(** *** [check] and [getUser] *)

(** C10: on the remember-token path of [check] the promise of the inner
    [login] is dropped: when the token resolves to a user whose
    primary-key value is null or absent (or otherwise falsy), that [login]
    throws the missing-key exception, yet [check] returns [true] and the
    guard's user is that user. *)
Theorem check_remember_unkeyable o w :
  truthy (user w) = false →
  truthy_prim (session_get (sessionKey w) w) = false →
  truthy_prim (request_cookie (remeberTokenKey w) w) = true →
  findByRememberToken serializer (db w) (request_cookie (remeberTokenKey w) w)
  = Some o →
  truthy_prim (key_of serializer o) = false →
  login serializer uuid (VObj o) w
  = (Threw RuntimeException_missingUid, with_user (VObj o) w)
  ∧ check serializer uuid w = (Returned true, with_user (VObj o) w)
  ∧ user (snd (check serializer uuid w)) = VObj o.
Proof.
  intros Hu Hs Ht Hf Hk. split; [by apply login_missingUid|].
  unfold check, login_detached. rewrite Hu, Hs, Ht, Hf. simpl.
  by rewrite (login_start_missingUid _ _ (key_of serializer o)).
Qed.

(** C9: [check] never throws, so never the user-not-found exception, and
    neither does [getUser]. With no user in memory: when neither the
    session key nor the remember token is present, [check] returns [false]
    and the state is untouched; when the session key is present and its
    id resolves to no user, [check] returns [false]; [getUser] returns the
    absent user ([null]) in both cases. *)
Theorem check_never_throws w :
  (∃ b w', check serializer uuid w = (Returned b, w')) ∧
  (∃ v w', getUser serializer uuid w = (Returned v, w')) ∧
  (truthy (user w) = false →
   truthy_prim (session_get (sessionKey w) w) = false →
   truthy_prim (request_cookie (remeberTokenKey w) w) = false →
   check serializer uuid w = (Returned false, w) ∧
   getUser serializer uuid w = (Returned (user w), w)) ∧
  (truthy (user w) = false →
   truthy_prim (session_get (sessionKey w) w) = true →
   findById serializer (db w) (session_get (sessionKey w) w) = None →
   check serializer uuid w = (Returned false, with_user null w) ∧
   getUser serializer uuid w = (Returned null, with_user null w)).
Proof.
  assert (∃ b w', check serializer uuid w = (Returned b, w')) as Hc.
  { unfold check. repeat case_match; eauto. }
  split; [done|]. split.
  { destruct Hc as (b & w' & Hc). unfold getUser. rewrite Hc. eauto. }
  split.
  - intros Hu Hs Ht. unfold getUser, check. by rewrite Hu, Hs, Ht.
  - intros Hu Hs Hf. unfold getUser, check. by rewrite Hu, Hs, Hf.
Qed.

(** *** [validate] and [attempt] *)

(** C7: [validate] never changes the state and never returns [false].
    When no user resolves for [uid] it throws the user-not-found
    exception, whose message includes the name of the lookup key and
    [uid]; when the user resolves and the password is not verified it
    throws the password-mismatch exception; otherwise it returns the user
    when [returnUser] is truthy and [true] when it is not. *)
Theorem validate_outcomes (uid password : string) (returnUser : value) w :
  snd (validate serializer uid password returnUser w) = w ∧
  fst (validate serializer uid password returnUser w) ≠ Returned (VPrim (PBool false)) ∧
  match findByUid serializer (db w) uid with
  | None =>
    ∃ message,
      fst (validate serializer uid password returnUser w)
      = Threw (UserNotFoundException message) ∧
      includes (cfg_uid (_config w)) message ∧ includes uid message
  | Some o =>
    if validateCredentails serializer (db w) (VObj o) password
    then fst (validate serializer uid password returnUser w)
         = Returned (if truthy returnUser then VObj o else VPrim (PBool true))
    else ∃ message,
           fst (validate serializer uid password returnUser w)
           = Threw (PasswordMisMatchException message)
  end.
Proof.
  unfold validate.
  destruct (findByUid serializer (db w) uid) as [o|]; simpl.
  - destruct (validateCredentails serializer (db w) (VObj o) password); simpl.
    + split; [done|]. split; [by destruct (truthy returnUser)|done].
    + split; [done|]. split; [done|by eexists].
  - split; [done|]. split; [done|]. eexists. split; [done|].
    split; [apply includes_middle|].
    do 3 apply includes_app_l. apply includes_self.
Qed.

(** C8: [attempt] is [validate] with [returnUser = true] followed by
    [login] of the resolved user: a failure of [validate] is the result of
    [attempt], with the state as [validate] left it; otherwise the result
    and the state (the session-key write included) are those of [login]
    on that user, its failures included. *)
Theorem attempt_validate_login (uid password : string) w :
  attempt serializer uuid uid password w
  = validate_then_login serializer uuid uid password w ∧
  (∀ e w', validate serializer uid password (VPrim (PBool true)) w = (Threw e, w') →
           attempt serializer uuid uid password w = (Threw e, w')) ∧
  (∀ u w', validate serializer uid password (VPrim (PBool true)) w = (Returned u, w') →
           attempt serializer uuid uid password w = login serializer uuid u w' ∧
           session (snd (attempt serializer uuid uid password w))
           = session (snd (login serializer uuid u w'))).
Proof.
  split; [|split].
  - unfold attempt, validate_then_login, validate.
    destruct (findByUid serializer (db w) uid) as [o|]; simpl; [|done].
    by destruct (validateCredentails serializer (db w) (VObj o) password).
  - intros e w' H. unfold attempt. by rewrite H.
  - intros u w' H. unfold attempt. by rewrite H.
Qed.

(** *** [logout] *)

(** C6: [logout] leaves the guard without a user and with [viaRemember]
    false, the session without the session key and the response with the
    remember cookie cleared, whatever the state it is called in; it cannot
    throw, and a second [logout] changes nothing: [logout (logout w)] is
    [logout w]. *)
Theorem logout_clears_idempotent w :
  reachable serializer mslib uuid w →
  user (logout w) = null ∧
  viaRemember (logout w) = false ∧
  session (logout w) !! sessionKey w = None ∧
  response_cookies (logout w) !! remeberTokenKey w = Some ClearCookie ∧
  logout (logout w) = logout w ∧
  (user w = null →
   user (logout w) = user w ∧ viaRemember (logout w) = viaRemember w ∧
   (session w !! sessionKey w = None → session (logout w) = session w)).
Proof.
  intros R. apply reachable_viaRemember in R.
  unfold logout, _removeSession; simpl.
  split; [done|]. split; [done|]. split; [|split; [|split]].
  - unfold sessionKey; simpl. by rewrite lookup_delete_eq.
  - by rewrite lookup_insert_eq.
  - unfold with_response, with_session, with_user, sessionKey, remeberTokenKey; simpl.
    by rewrite delete_delete_eq, insert_insert_eq.
  - intros Hu. split; [done|]. split; [done|].
    intros Hs. unfold sessionKey in *. simpl. by apply delete_id.
Qed.

(** *** [remember] and the pending duration *)

(** C4, as the code has it: [true] and [1] set the five-year default; a
    string sets what [ms] makes of it, and where [ms] throws on the string
    (the empty string) [remember] throws that error and sets nothing; [0]
    and [false] set nothing either (what was pending stays pending); every
    other value, [undefined] (absent) included, is set as it is,
    [undefined] being no duration for [login]. [remember] throws in no
    other case, and nothing but the current value of the holder changes. *)
Theorem remember_table (duration : value) w :
  pending (snd (remember mslib duration w))
  = (if strict_eq duration (PBool true) || strict_eq duration (PNum 1)
     then VPrim (PNum 157788000000)
     else match is_string duration with
          | Some s =>
            match ms mslib s with
            | Returned v => v
            | Threw _ => pending w
            end
          | None =>
            if strict_eq duration (PNum 0) || strict_eq duration (PBool false)
            then pending w
            else duration
          end) ∧
  fst (remember mslib duration w)
  = (if strict_eq duration (PBool true) || strict_eq duration (PNum 1)
     then Returned tt
     else match is_string duration with
          | Some s =>
            match ms mslib s with
            | Returned _ => Returned tt
            | Threw e => Threw e
            end
          | None => Returned tt
          end) ∧
  snd (remember mslib duration w)
  = with_duration
      (Resetable.set (pending (snd (remember mslib duration w)))
         (_rememberTokenDuration w)) w ∧
  truthy (pending (snd (remember mslib undefined w))) = false.
Proof.
  assert (w = with_duration
                (Resetable.set (pending w) (_rememberTokenDuration w)) w) as Eta
    by (by destruct w as [? ? []]).
  unfold remember, pending. rewrite (ms_5y mslib).
  destruct (strict_eq duration (PBool true) || strict_eq duration (PNum 1));
    [done|].
  destruct (is_string duration) as [s|].
  - by destruct (ms mslib s).
  - by destruct (strict_eq duration (PNum 0)), (strict_eq duration (PBool false)).
Qed.

(** An awaited [login] with nothing pending mints no token. *)
Lemma login_nothing_minted u w :
  truthy (pending w) = false →
  nothing_minted w (snd (login serializer uuid u w)).
Proof.
  intros P. unfold nothing_minted, login.
  destruct (truthy (user w)) eqn:Hu; [by rewrite login_start_authenticated|].
  destruct (primaryKeyValue serializer (with_user u w)) as [pkv|e] eqn:K;
    [|by rewrite (login_start_TypeError _ _ e)].
  destruct (truthy_prim pkv) eqn:T; [|by rewrite (login_start_missingUid _ _ pkv)].
  rewrite (login_start_plain _ _ pkv); [|done..].
  unfold _setSession. simpl. done.
Qed.

(** Every event but [remember] leaves the holder alone or clears it. *)
Lemma after_holder e w :
  is_remember e = false →
  _rememberTokenDuration (after serializer mslib uuid e w) = _rememberTokenDuration w ∨
  _rememberTokenDuration (after serializer mslib uuid e w)
  = Resetable.clear (_rememberTokenDuration w).
Proof.
  destruct e; try done; intros _; unfold_methods;
    repeat (simpl; case_match); simplify_eq; simpl; auto.
Qed.

Lemma run_untouched es w : untouched w (run serializer mslib uuid es w).
Proof.
  revert w. induction es as [|e es IH]; intros w; [done|].
  change (run serializer mslib uuid (e :: es) w)
    with (run serializer mslib uuid es (after serializer mslib uuid e w)).
  destruct (IH (after serializer mslib uuid e w)) as (H1 & H2 & H3 & H4).
  destruct (after_untouched e w) as (G1 & G2 & G3 & G4).
  unfold untouched. by rewrite H1, H2, H3, H4.
Qed.

Lemma run_pending_none es w :
  forallb (λ e, negb (is_remember e)) es = true →
  Resetable.initialValue (_rememberTokenDuration w) = VPrim (PNum 0) →
  pending w = VPrim (PNum 0) →
  pending (run serializer mslib uuid es w) = VPrim (PNum 0).
Proof.
  revert w. induction es as [|e es IH]; intros w Hes Hi Hp; [done|].
  simpl in Hes. apply andb_prop in Hes as [He Hes]. apply negb_true_iff in He.
  change (run serializer mslib uuid (e :: es) w)
    with (run serializer mslib uuid es (after serializer mslib uuid e w)).
  apply IH; [done| |].
  - destruct (after_untouched e w) as (_ & -> & _). done.
  - unfold pending, Resetable.get in *.
    destruct (after_holder e w He) as [->| ->]; [done|]. simpl. done.
Qed.

(** A [login] that returns has pulled the duration. *)
Lemma login_returned_pending u w r w' :
  login serializer uuid u w = (Returned r, w') →
  pending w' = Resetable.initialValue (_rememberTokenDuration w).
Proof.
  unfold pending, login, login_start, login_finish, _setSession, Resetable.pull.
  repeat (simpl; case_match); simpl; intros; simplify_eq; simpl; done.
Qed.

(** C3: a [login] that succeeds leaves no duration pending, whether it
    issued a token or not; and after it, as long as [remember] is not
    called again, none is pending and a [login] mints no token: it draws
    no identifier, saves nothing with the provider and writes no
    cookie. *)
Theorem login_consumes_duration u w r w1 :
  reachable serializer mslib uuid w →
  login serializer uuid u w = (Returned r, w1) →
  pending w1 = VPrim (PNum 0) ∧
  ∀ es u2,
    forallb (λ e, negb (is_remember e)) es = true →
    let w2 := run serializer mslib uuid es w1 in
    pending w2 = VPrim (PNum 0) ∧
    nothing_minted w2 (snd (login serializer uuid u2 w2)).
Proof.
  intros R L.
  assert (pending w1 = VPrim (PNum 0)) as P1.
  { rewrite (login_returned_pending _ _ _ _ L). by apply reachable_initialValue. }
  split; [done|]. intros es u2 Hes w2.
  assert (pending w2 = VPrim (PNum 0)) as P2.
  { apply run_pending_none; [done| |done].
    destruct (after_untouched (ev_login u) w) as (_ & H & _).
    unfold after in H. rewrite L in H. simpl in H. rewrite H.
    by apply reachable_initialValue. }
  split; [done|]. apply login_nothing_minted. by rewrite P2.
Qed.

(** *** Resuming a suspended [login] *)

Lemma resume_idle w : suspended w = [] → resume serializer w = w.
Proof. unfold resume. by intros ->. Qed.

(** Resumed under a user [o], a suspended [login] writes the key of [o]. *)
Lemma resume_writes_key o w f fs :
  user w = VObj o → suspended w = f :: fs →
  user (resume serializer w) = VObj o ∧
  suspended (resume serializer w) = fs ∧
  sessionKey (resume serializer w) = sessionKey w ∧
  session (resume serializer w) !! sessionKey w = Some (key_of serializer o).
Proof.
  intros Hu Hs. unfold resume, login_finish, primaryKeyValue. rewrite Hs. simpl.
  rewrite Hu. unfold _setSession. simpl.
  destruct (truthy (fr_rememberToken f) && truthy (fr_duration f)); simpl;
    (repeat split; [done..|]); apply lookup_insert_eq.
Qed.

Lemma settle_writes_key o n w :
  length (suspended w) = n →
  user w = VObj o →
  n ≠ 0%nat ∨ session w !! sessionKey w = Some (key_of serializer o) →
  session (Nat.iter n (resume serializer) w) !! sessionKey w
  = Some (key_of serializer o).
Proof.
  revert w. induction n as [|n IH]; intros w Hn Hu Hk.
  - by destruct Hk.
  - destruct (suspended w) as [|f fs] eqn:Hs; [done|].
    destruct (resume_writes_key o w f fs Hu Hs) as (Ru & Rs & Rk & Rv).
    rewrite Nat.iter_succ_r, <- Rk. apply IH.
    + rewrite Rs. simpl in Hn. congruence.
    + done.
    + right. by rewrite Rk.
Qed.

(** C5: [check] on a guard with no user in memory. With the session key
    present it resolves the user by [findById], makes the result the
    guard's user, returns whether there is one, and [viaRemember] is
    false. With only the remember token present it resolves the user by
    [findByRememberToken] and returns whether there is one; a user found
    (with a usable key) goes through [login]: it is the guard's user and
    the session key holds its primary-key value, at once when no duration
    is pending, where the state is exactly that of [login], and as soon as
    the suspended [login] is resumed when one is. *)
Theorem check_restores w :
  reachable serializer mslib uuid w →
  truthy (user w) = false →
  let sessionValue := session_get (sessionKey w) w in
  let rememberMeToken := request_cookie (remeberTokenKey w) w in
  (truthy_prim sessionValue = true →
     let found := of_lookup (findById serializer (db w) sessionValue) in
     check serializer uuid w = (Returned (truthy found), with_user found w) ∧
     user (snd (check serializer uuid w)) = found ∧
     viaRemember (snd (check serializer uuid w)) = false) ∧
  (truthy_prim sessionValue = false → truthy_prim rememberMeToken = true →
     fst (check serializer uuid w)
     = Returned (truthy (of_lookup (findByRememberToken serializer (db w) rememberMeToken))) ∧
     match findByRememberToken serializer (db w) rememberMeToken with
     | None => check serializer uuid w = (Returned false, w)
     | Some o =>
       truthy_prim (key_of serializer o) = true →
       ∃ w', check serializer uuid w = (Returned true, w') ∧
             user w' = VObj o ∧
             viaRemember w' = false ∧
             session (settle serializer w') !! sessionKey w
             = Some (key_of serializer o) ∧
             (truthy (pending w) = false →
                login serializer uuid (VObj o) w = (Returned (VObj o), w') ∧
                session w' !! sessionKey w = Some (key_of serializer o)) ∧
             (truthy (pending w) = true → suspended w = [] →
                login serializer uuid (VObj o) w
                = (Returned (VObj o), settle serializer w'))
     end).
Proof.
  intros R Hu sessionValue rememberMeToken.
  pose proof (reachable_viaRemember w R) as Hv. split.
  - intros Hs found. unfold check. rewrite Hu. fold sessionValue. rewrite Hs.
    by simpl.
  - intros Hs Ht. unfold check. rewrite Hu. fold sessionValue rememberMeToken.
    rewrite Hs, Ht.
    destruct (findByRememberToken serializer (db w) rememberMeToken) as [o|];
      [|done].
    split; [done|].
    intros Hk. simpl. unfold login_detached, login.
    destruct (truthy (pending w)) eqn:P.
    + rewrite (login_start_remember (VObj o) w (key_of serializer o)); [|done..].
      eexists. split; [done|]. simpl. split; [done|]. split; [done|].
      split; [|split; [done|]].
      * unfold settle.
        match goal with
        | |- session (Nat.iter _ _ ?W) !! _ = _ =>
          apply (settle_writes_key o _ W); [done|done|]
        end.
        left. simpl. rewrite length_app. simpl. lia.
      * intros _ Hnil. unfold settle. simpl. rewrite Hnil. simpl.
        unfold resume. simpl.
        unfold login_finish, primaryKeyValue. simpl.
        do 2 f_equal. unfold with_suspended, with_db, with_uuid, with_duration,
          with_user. simpl. by rewrite Hnil.
    + rewrite (login_start_plain (VObj o) w (key_of serializer o)); [|done..].
      eexists. split; [done|].
      assert (session (_setSession (key_of serializer o) null (pending w)
                (with_duration (Resetable.clear (_rememberTokenDuration w))
                   (with_user (VObj o) w))) !! sessionKey w
              = Some (key_of serializer o)) as Hw.
      { unfold _setSession. simpl. apply lookup_insert_eq. }
      split; [done|]. split; [done|]. split; [|split; [done|done]].
      unfold settle.
      match goal with
      | |- session (Nat.iter _ _ ?W) !! _ = _ =>
        apply (settle_writes_key o _ W); [done|done|by right]
      end.
Qed.

End Properties.

(** ** The scheme on the concrete environment *)

Lemma reachable_fresh (s c : gmap string prim) :
  reachable Demo.serializer Demo.mslib Demo.uuid (Demo.fresh s c).
Proof. by apply reachable_constructed. Qed.

Lemma login_already_authenticated_witness :
  truthy (user Demo.logged_in) = true ∧
  login Demo.serializer Demo.uuid (VObj Demo.bob) Demo.logged_in
  = (Threw RuntimeException_authenticatedInstance, Demo.logged_in) ∧
  user Demo.logged_in = VObj Demo.alice.
Proof.
  assert (truthy (user Demo.logged_in) = true) as H by reflexivity.
  split; [exact H|].
  split; [|reflexivity].
  exact (proj1 (login_already_authenticated Demo.serializer Demo.uuid
                  (VObj Demo.bob) Demo.logged_in H)).
Defined.

Lemma login_missing_key_witness :
  truthy (user Demo.anonymous) = false ∧
  Demo.nobody !! "id" = Some PNull ∧
  login Demo.serializer Demo.uuid (VObj Demo.nobody) Demo.anonymous
  = (Threw RuntimeException_missingUid, with_user (VObj Demo.nobody) Demo.anonymous) ∧
  user (snd (login Demo.serializer Demo.uuid (VObj Demo.nobody) Demo.anonymous))
  = VObj Demo.nobody.
Proof.
  split; [reflexivity|]. split; [reflexivity|].
  destruct (login_missing_key Demo.serializer Demo.uuid Demo.nobody Demo.anonymous
              eq_refl eq_refl) as (L & U & _).
  split; [exact L|exact U].
Defined.

(** C2 as stated fails: [login] of a user whose primary key is [null], on a
    just-constructed guard, throws the missing-key exception, but the
    guard's user is no longer unset: it is that user, [check] answers
    [true] and the [login] of a proper user is refused. The same holds for
    a user with no primary-key attribute at all. *)
Lemma login_missing_key_keeps_user :
  user Demo.anonymous = null ∧
  fst (login Demo.serializer Demo.uuid (VObj Demo.nobody) Demo.anonymous)
  = Threw RuntimeException_missingUid ∧
  user (snd (login Demo.serializer Demo.uuid (VObj Demo.nobody) Demo.anonymous))
  = VObj Demo.nobody ∧
  user (snd (login Demo.serializer Demo.uuid (VObj Demo.nobody) Demo.anonymous))
  ≠ null ∧
  user (snd (login Demo.serializer Demo.uuid (VObj Demo.ghost) Demo.anonymous))
  = VObj Demo.ghost ∧
  fst (check Demo.serializer Demo.uuid
         (snd (login Demo.serializer Demo.uuid (VObj Demo.nobody) Demo.anonymous)))
  = Returned true ∧
  fst (login Demo.serializer Demo.uuid (VObj Demo.alice)
         (snd (login Demo.serializer Demo.uuid (VObj Demo.nobody) Demo.anonymous)))
  = Threw RuntimeException_authenticatedInstance.
Proof.
  split; [reflexivity|].
  rewrite (login_missingUid Demo.serializer Demo.uuid Demo.nobody Demo.anonymous);
    [|reflexivity|by apply key_of_null].
  rewrite (login_missingUid Demo.serializer Demo.uuid Demo.ghost Demo.anonymous);
    [|reflexivity|by apply key_of_absent].
  repeat split. discriminate.
Qed.


Lemma check_remember_unkeyable_witness :
  truthy (user Demo.returning_ghost) = false ∧
  findByRememberToken Demo.serializer (db Demo.returning_ghost) (PStr "ghost-token")
  = Some Demo.ghost ∧
  Demo.ghost !! "id" = None ∧
  login Demo.serializer Demo.uuid (VObj Demo.ghost) Demo.returning_ghost
  = (Threw RuntimeException_missingUid, with_user (VObj Demo.ghost) Demo.returning_ghost) ∧
  check Demo.serializer Demo.uuid Demo.returning_ghost
  = (Returned true, with_user (VObj Demo.ghost) Demo.returning_ghost) ∧
  user (snd (check Demo.serializer Demo.uuid Demo.returning_ghost)) = VObj Demo.ghost.
Proof.
  split; [reflexivity|]. split; [reflexivity|]. split; [reflexivity|].
  apply (check_remember_unkeyable Demo.serializer Demo.uuid Demo.ghost
           Demo.returning_ghost); reflexivity.
Defined.

Lemma check_never_throws_witness :
  (check Demo.serializer Demo.uuid Demo.anonymous = (Returned false, Demo.anonymous) ∧
   getUser Demo.serializer Demo.uuid Demo.anonymous = (Returned null, Demo.anonymous)) ∧
  (check Demo.serializer Demo.uuid Demo.stale
   = (Returned false, with_user null Demo.stale) ∧
   getUser Demo.serializer Demo.uuid Demo.stale
   = (Returned null, with_user null Demo.stale)).
Proof.
  split.
  - exact (proj1 (proj2 (proj2 (check_never_throws Demo.serializer Demo.uuid
                                  Demo.anonymous)))
             eq_refl eq_refl eq_refl).
  - exact (proj2 (proj2 (proj2 (check_never_throws Demo.serializer Demo.uuid
                                  Demo.stale)))
             eq_refl eq_refl eq_refl).
Defined.

Lemma attempt_validate_login_witness :
  validate Demo.serializer "alice" "correct-pw" (VPrim (PBool true)) Demo.anonymous
  = (Returned (VObj Demo.alice), Demo.anonymous) ∧
  attempt Demo.serializer Demo.uuid "alice" "correct-pw" Demo.anonymous
  = login Demo.serializer Demo.uuid (VObj Demo.alice) Demo.anonymous ∧
  session (snd (attempt Demo.serializer Demo.uuid "alice" "correct-pw" Demo.anonymous))
  !! "adonis-auth" = Some (PNum 1) ∧
  attempt Demo.serializer Demo.uuid "alice" "wrong-pw" Demo.anonymous
  = (Threw (PasswordMisMatchException "Cannot verify user password"), Demo.anonymous) ∧
  attempt Demo.serializer Demo.uuid "carol" "pw" Demo.anonymous
  = (Threw (UserNotFoundException "Cannot find user with email as carol"),
     Demo.anonymous).
Proof.
  assert (validate Demo.serializer "alice" "correct-pw" (VPrim (PBool true))
            Demo.anonymous = (Returned (VObj Demo.alice), Demo.anonymous)) as V
    by reflexivity.
  split; [exact V|].
  destruct (proj2 (proj2 (attempt_validate_login Demo.serializer Demo.uuid
                            "alice" "correct-pw" Demo.anonymous)) _ _ V) as [A S].
  split; [exact A|]. split; [rewrite S; reflexivity|].
  split.
  - exact (proj1 (proj2 (attempt_validate_login Demo.serializer Demo.uuid
                           "alice" "wrong-pw" Demo.anonymous)) _ _ eq_refl).
  - exact (proj1 (proj2 (attempt_validate_login Demo.serializer Demo.uuid
                           "carol" "pw" Demo.anonymous)) _ _ eq_refl).
Defined.

Lemma logout_clears_idempotent_witness :
  reachable Demo.serializer Demo.mslib Demo.uuid Demo.logged_in ∧
  user Demo.logged_in = VObj Demo.alice ∧
  session Demo.logged_in !! "adonis-auth" = Some (PNum 1) ∧
  user (logout Demo.logged_in) = null ∧
  viaRemember (logout Demo.logged_in) = false ∧
  session (logout Demo.logged_in) !! "adonis-auth" = None ∧
  response_cookies (logout Demo.logged_in) !! "adonis-remember-token" = Some ClearCookie ∧
  logout (logout Demo.logged_in) = logout Demo.logged_in.
Proof.
  assert (reachable Demo.serializer Demo.mslib Demo.uuid Demo.logged_in) as R.
  { apply (reachable_after _ _ _ (ev_login (VObj Demo.alice))), reachable_fresh. }
  split; [exact R|]. split; [reflexivity|]. split; [reflexivity|].
  destruct (logout_clears_idempotent Demo.serializer Demo.mslib Demo.uuid
              Demo.logged_in R) as (U & V & S & C & I & _).
  split; [exact U|]. split; [exact V|]. split; [exact S|].
  split; [exact C|exact I].
Defined.


Lemma login_consumes_duration_witness :
  reachable Demo.serializer Demo.mslib Demo.uuid Demo.remembering ∧
  pending Demo.remembering = VPrim (PNum 157788000000) ∧
  login Demo.serializer Demo.uuid (VObj Demo.alice) Demo.remembering
  = (Returned (VObj Demo.alice),
     snd (login Demo.serializer Demo.uuid (VObj Demo.alice) Demo.remembering)) ∧
  response_cookies
    (snd (login Demo.serializer Demo.uuid (VObj Demo.alice) Demo.remembering))
  !! "adonis-remember-token"
  = Some (SetCookie (VPrim (PStr "uuid-0")) (VPrim (PNum 157788000000))) ∧
  pending (snd (login Demo.serializer Demo.uuid (VObj Demo.alice) Demo.remembering))
  = VPrim (PNum 0) ∧
  nothing_minted
    (logout (snd (login Demo.serializer Demo.uuid (VObj Demo.alice) Demo.remembering)))
    (snd (login Demo.serializer Demo.uuid (VObj Demo.bob)
            (logout (snd (login Demo.serializer Demo.uuid (VObj Demo.alice)
                            Demo.remembering))))).
Proof.
  assert (reachable Demo.serializer Demo.mslib Demo.uuid Demo.remembering) as R.
  { apply (reachable_after _ _ _ (ev_remember (VPrim (PBool true)))), reachable_fresh. }
  assert (login Demo.serializer Demo.uuid (VObj Demo.alice) Demo.remembering
          = (Returned (VObj Demo.alice),
             snd (login Demo.serializer Demo.uuid (VObj Demo.alice) Demo.remembering)))
    as L by reflexivity.
  split; [exact R|]. split; [reflexivity|]. split; [exact L|]. split; [reflexivity|].
  destruct (login_consumes_duration Demo.serializer Demo.mslib Demo.uuid
              _ _ _ _ R L) as [P N].
  split; [exact P|].
  exact (proj2 (N [ev_logout] (VObj Demo.bob) eq_refl)).
Defined.

Lemma check_restores_witness :
  (reachable Demo.serializer Demo.mslib Demo.uuid Demo.returning_alice ∧
   truthy (user Demo.returning_alice) = false ∧
   check Demo.serializer Demo.uuid Demo.returning_alice
   = (Returned true, with_user (VObj Demo.alice) Demo.returning_alice) ∧
   viaRemember (snd (check Demo.serializer Demo.uuid Demo.returning_alice)) = false) ∧
  (reachable Demo.serializer Demo.mslib Demo.uuid Demo.returning_bob ∧
   truthy (user Demo.returning_bob) = false ∧
   session Demo.returning_bob !! "adonis-auth" = None ∧
   ∃ w', check Demo.serializer Demo.uuid Demo.returning_bob = (Returned true, w') ∧
         login Demo.serializer Demo.uuid (VObj Demo.bob) Demo.returning_bob
         = (Returned (VObj Demo.bob), w') ∧
         user w' = VObj Demo.bob ∧
         viaRemember w' = false ∧
         session w' !! "adonis-auth" = Some (PNum 2)).
Proof.
  split.
  - pose proof (reachable_fresh {[ "adonis-auth" := PNum 1 ]} ∅) as R.
    split; [exact R|]. split; [reflexivity|].
    destruct (proj1 (check_restores Demo.serializer Demo.mslib Demo.uuid
                       Demo.returning_alice R eq_refl) eq_refl) as (C & _ & V).
    split; [exact C|exact V].
  - pose proof (reachable_fresh ∅ {[ "adonis-remember-token" := PStr "bob-token" ]}) as R.
    split; [exact R|]. split; [reflexivity|]. split; [reflexivity|].
    destruct (proj2 (proj2 (check_restores Demo.serializer Demo.mslib Demo.uuid
                              Demo.returning_bob R eq_refl) eq_refl eq_refl) eq_refl)
      as (w' & C & U & V & _ & P & _).
    destruct (P eq_refl) as [L S].
    exists w'. split; [exact C|]. split; [exact L|]. split; [exact U|].
    split; [exact V|exact S].
Defined.

(** With a duration pending when [check] takes the remember-token path
    ([remember(true)] was called before), the [login] inside [check] is
    still waiting for the provider when [check] returns: the token is saved
    but the session key and the cookie are written only when it resumes. *)
Example check_remember_pending :
  let w := snd (remember Demo.mslib (VPrim (PBool true)) Demo.returning_bob) in
  let w' := snd (check Demo.serializer Demo.uuid w) in
  fst (check Demo.serializer Demo.uuid w) = Returned true ∧
  user w' = VObj Demo.bob ∧
  length (suspended w') = 1%nat ∧
  session w' !! "adonis-auth" = None ∧
  session (settle Demo.serializer w') !! "adonis-auth" = Some (PNum 2) ∧
  response_cookies (settle Demo.serializer w') !! "adonis-remember-token"
  = Some (SetCookie (VPrim (PStr "uuid-0")) (VPrim (PNum 157788000000))).
Proof. repeat split. Qed.

(** Where [ms] refuses the string, here the empty one, [remember] throws
    and what was pending stays pending. *)
Example remember_empty_string :
  remember Demo.mslib (VPrim (PStr "")) Demo.remembering
  = (Threw (Error "val is not a non-empty string or a valid number"),
     Demo.remembering) ∧
  pending Demo.remembering = VPrim (PNum 157788000000) ∧
  remember Demo.mslib (VPrim (PStr "2 days")) Demo.remembering
  = (Returned tt,
     with_duration
       (Resetable.set (VPrim (PNum 172800000))
          (_rememberTokenDuration Demo.remembering)) Demo.remembering).
Proof. repeat split. Qed.

(** C4 as stated fails on [false] and [0]: after [remember(true)],
    [remember(false)] (or [remember(0)]) does not put the pending duration
    back to none; the five years stay pending and the next [login] issues
    the remember cookie with them. *)
Lemma remember_false_keeps_pending :
  pending (snd (remember Demo.mslib (VPrim (PBool false)) Demo.remembering))
  = VPrim (PNum 157788000000) ∧
  pending (snd (remember Demo.mslib (VPrim (PNum 0)) Demo.remembering))
  = VPrim (PNum 157788000000) ∧
  ¬ (truthy (pending (snd (remember Demo.mslib (VPrim (PBool false)) Demo.remembering)))
     = false) ∧
  response_cookies
    (snd (login Demo.serializer Demo.uuid (VObj Demo.alice)
            (snd (remember Demo.mslib (VPrim (PBool false)) Demo.remembering))))
  !! "adonis-remember-token"
  = Some (SetCookie (VPrim (PStr "uuid-0")) (VPrim (PNum 157788000000))).
Proof. repeat split. discriminate. Qed.

(** ** Further properties of the scheme

    What the methods do beyond the claims above: [loginViaId], the two key
    getters, what a [login] that returns has written, and how the methods
    compose over one request and the next. *)

Section Further.

Context {DB : Type}.
Variable serializer : Serializer DB.
Variable mslib : MsLib.
Variable uuid : UuidLib.

Implicit Types (w : @World DB) (o : gmap string prim) (u : value).

(** *** [loginViaId] *)

(** X1: [loginViaId] of an id that resolves to no user throws the
    user-not-found exception, whose message includes the name of the primary
    key and the id, and leaves the state alone; of an id that resolves, it
    is [login] of the user found. *)
Theorem loginViaId_outcomes (id : prim) w :
  match findById serializer (db w) id with
  | None =>
    ∃ message,
      loginViaId serializer uuid id w = (Threw (UserNotFoundException message), w) ∧
      includes (primaryKey serializer) message ∧
      includes (to_string id) message
  | Some o =>
    loginViaId serializer uuid id w = login serializer uuid (VObj o) w
  end.
Proof.
  unfold loginViaId.
  destruct (findById serializer (db w) id) as [o|]; simpl; [done|].
  eexists. split; [done|]. split; [apply includes_middle|].
  do 3 apply includes_app_l. apply includes_self.
Qed.

(** *** The key getters *)

Lemma or_default_nonempty (a : option string) (d : string) :
  d ≠ "" → or_default a d ≠ "".
Proof.
  intros Hd. unfold or_default. destruct a as [s|]; [|done].
  by destruct (String.eqb_spec s "").
Qed.

(** X2: whatever the configuration, the session key and the remember-token
    key are never the empty string: a key configured as the empty string
    falls back to the default like a key not configured, and every other
    configured key is used as it is. *)
Theorem keys_never_empty w :
  sessionKey w ≠ "" ∧ remeberTokenKey w ≠ "" ∧
  (∀ s, cfg_sessionKey (_config w) = Some s →
        sessionKey w = if String.eqb s "" then "adonis-auth" else s) ∧
  (∀ s, cfg_rememberMeToken (_config w) = Some s →
        remeberTokenKey w = if String.eqb s "" then "adonis-remember-token" else s) ∧
  (cfg_sessionKey (_config w) = None → sessionKey w = "adonis-auth") ∧
  (cfg_rememberMeToken (_config w) = None →
   remeberTokenKey w = "adonis-remember-token").
Proof.
  unfold sessionKey, remeberTokenKey.
  split; [by apply or_default_nonempty|]. split; [by apply or_default_nonempty|].
  split; [by intros s ->|]. split; [by intros s ->|].
  split; by intros ->.
Qed.

(** *** What a [login] that returns has done *)

(** A [login] that returns was given an object with a usable key, on a
    guard without a user; the object is the guard's user and its key is in
    the session. *)
Lemma login_returned_object u w r w' :
  login serializer uuid u w = (Returned r, w') →
  ∃ o, u = VObj o ∧ r = VObj o ∧ user w' = VObj o ∧
       truthy (user w) = false ∧
       truthy_prim (key_of serializer o) = true ∧
       _config w' = _config w ∧
       session w' = <[sessionKey w := key_of serializer o]> (session w).
Proof.
  intros L.
  destruct (truthy (user w)) eqn:Hu.
  { unfold login in L. by rewrite login_start_authenticated in L. }
  destruct u as [p|o].
  { unfold login in L.
    destruct (primaryKeyValue serializer (with_user (VPrim p) w)) as [pkv|e] eqn:K.
    - rewrite (login_start_missingUid _ _ _ _ pkv) in L; [done..|].
      unfold primaryKeyValue in K. simpl in K. by destruct p; simplify_eq.
    - by rewrite (login_start_TypeError _ _ _ _ e) in L. }
  exists o.
  destruct (truthy_prim (key_of serializer o)) eqn:Hk;
    [|by rewrite login_missingUid in L].
  unfold login in L.
  destruct (truthy (pending w)) eqn:P.
  - rewrite (login_start_remember _ _ (VObj o) w (key_of serializer o)) in L;
      [|done..].
    unfold login_finish, primaryKeyValue, _setSession in L. simpl in L.
    rewrite P in L. simpl in L. destruct (String.eqb_spec (v4 uuid (uuid_drawn w)) "") as [E|_];
      [by destruct (v4_nonempty uuid _ E)|].
    simpl in L. by simplify_eq.
  - rewrite (login_start_plain _ _ (VObj o) w (key_of serializer o)) in L;
      [|done..].
    unfold _setSession in L. simpl in L. by simplify_eq.
Qed.

(** X3: whenever [login] returns, it was called with a user object that
    carries a usable (truthy) primary key, on a guard that had no user; it
    returns that object, which is now the guard's user, the session holds
    the user's primary key under the session key, and no duration is left
    pending beyond the holder's initial value. *)
Theorem login_returned_session u w r w' :
  login serializer uuid u w = (Returned r, w') →
  ∃ o, u = VObj o ∧ r = VObj o ∧ user w' = VObj o ∧
       truthy (user w) = false ∧
       truthy_prim (key_of serializer o) = true ∧
       session_get (sessionKey w') w' = key_of serializer o ∧
       truthy_prim (session_get (sessionKey w') w') = true ∧
       pending w' = Resetable.initialValue (_rememberTokenDuration w).
Proof.
  intros L. destruct (login_returned_object _ _ _ _ L) as (o & -> & -> & U & A & K & C & S).
  exists o. repeat (split; [done|]).
  assert (session_get (sessionKey w') w' = key_of serializer o) as G.
  { unfold session_get, sessionKey. rewrite C, S. unfold sessionKey.
    by rewrite lookup_insert_eq. }
  split; [done|]. split; [by rewrite G|].
  by apply (login_returned_pending serializer uuid (VObj o) w (VObj o) w').
Qed.

(** X4: [login] of a user with a usable key on a guard without a user
    returns that user. With a duration pending it draws one identifier, has
    the provider save it for the user and writes the remember cookie with
    that same identifier and the pending duration as its expiry; with none
    pending it draws nothing, saves nothing and leaves the cookies alone. In
    both cases the session key is written and the holder is cleared. *)
Theorem login_remember_cookie o w :
  truthy (user w) = false →
  truthy_prim (key_of serializer o) = true →
  let token := VPrim (PStr (v4 uuid (uuid_drawn w))) in
  let w' := snd (login serializer uuid (VObj o) w) in
  fst (login serializer uuid (VObj o) w) = Returned (VObj o) ∧
  session w' = <[sessionKey w := key_of serializer o]> (session w) ∧
  _rememberTokenDuration w' = Resetable.clear (_rememberTokenDuration w) ∧
  if truthy (pending w)
  then response_cookies w'
       = <[remeberTokenKey w := SetCookie token (pending w)]> (response_cookies w) ∧
       db w' = saveRememberToken serializer (db w) (VObj o) token ∧
       uuid_drawn w' = S (uuid_drawn w)
  else response_cookies w' = response_cookies w ∧
       db w' = db w ∧
       uuid_drawn w' = uuid_drawn w.
Proof.
  intros Hu Hk token w'. subst w'. unfold login.
  destruct (truthy (pending w)) eqn:P.
  - rewrite (login_start_remember _ _ (VObj o) w (key_of serializer o)); [|done..].
    unfold login_finish, primaryKeyValue, _setSession. simpl. rewrite P. simpl.
    destruct (String.eqb_spec (v4 uuid (uuid_drawn w)) "") as [E|_];
      [by destruct (v4_nonempty uuid _ E)|].
    done.
  - rewrite (login_start_plain _ _ (VObj o) w (key_of serializer o)); [|done..].
    unfold _setSession. simpl. done.
Qed.



(** X6: after [logout], [login] of a user with a usable key never fails:
    whatever the state before, [logout] followed by [login] returns the
    user, makes it the guard's user and writes its key in the session. *)
Theorem login_after_logout o w :
  truthy_prim (key_of serializer o) = true →
  fst (login serializer uuid (VObj o) (logout w)) = Returned (VObj o) ∧
  user (snd (login serializer uuid (VObj o) (logout w))) = VObj o ∧
  session (snd (login serializer uuid (VObj o) (logout w))) !! sessionKey w
  = Some (key_of serializer o).
Proof.
  intros Hk.
  destruct (login serializer uuid (VObj o) (logout w)) as [[r|e] w'] eqn:L.
  - destruct (login_returned_object _ _ _ _ L) as (o' & E & -> & U & _ & _ & _ & S).
    simplify_eq. simpl. split; [done|]. split; [done|].
    rewrite S. apply lookup_insert_eq.
  - exfalso. unfold login in L.
    destruct (truthy (pending (logout w))) eqn:P.
    + by rewrite (login_start_remember _ _ (VObj o) (logout w) (key_of serializer o)) in L.
    + by rewrite (login_start_plain _ _ (VObj o) (logout w) (key_of serializer o)) in L.
Qed.

(** *** One request and the next *)

(** X7: the session a [login] leaves behind is what [check] needs in the
    next request. After a [login] of [o] that returned, a guard without a
    user that has the same configuration and carries that session resolves
    the user by [findById] on the primary key of [o]: [check] returns
    whether the provider finds one and makes the answer the guard's user,
    without looking at the remember cookie and without writing anything
    else. *)
Theorem login_then_check o w r w1 w2 :
  login serializer uuid (VObj o) w = (Returned r, w1) →
  truthy (user w2) = false →
  _config w2 = _config w1 →
  session w2 = session w1 →
  let found := of_lookup (findById serializer (db w2) (key_of serializer o)) in
  check serializer uuid w2 = (Returned (truthy found), with_user found w2).
Proof.
  intros L Hu Hc Hs found.
  destruct (login_returned_object _ _ _ _ L) as (o' & E & _ & _ & _ & K & C & S).
  simplify_eq.
  assert (session_get (sessionKey w2) w2 = key_of serializer o') as G.
  { unfold session_get, sessionKey. rewrite Hs, Hc, C, S. unfold sessionKey.
    by rewrite lookup_insert_eq. }
  unfold check. by rewrite Hu, G, K.
Qed.

(** The guard's user after the un-awaited [login] of an object. *)
Lemma login_detached_user o w :
  truthy (user w) = false →
  user (login_detached serializer uuid (VObj o) w) = VObj o.
Proof.
  intros Hu. unfold login_detached.
  destruct (truthy_prim (key_of serializer o)) eqn:K.
  - destruct (truthy (pending w)) eqn:P.
    + by rewrite (login_start_remember _ _ (VObj o) w (key_of serializer o)).
    + rewrite (login_start_plain _ _ (VObj o) w (key_of serializer o)); [|done..].
      unfold _setSession. simpl. done.
  - by rewrite (login_start_missingUid _ _ (VObj o) w (key_of serializer o)).
Qed.

(** X8: [logout] clears the cookie on the response, but [check] reads the
    cookie of the request. In the same request, [check] after [logout]
    answers [false] and changes nothing when the request carries no remember
    token; when it carries one, [check] takes the remember-token path again:
    it answers whether the token resolves to a user, and a user found is
    the guard's user once more. *)
Theorem check_after_logout w :
  let token := request_cookie (remeberTokenKey w) w in
  (truthy_prim token = false →
   check serializer uuid (logout w) = (Returned false, logout w)) ∧
  (truthy_prim token = true →
   fst (check serializer uuid (logout w))
   = Returned (truthy (of_lookup (findByRememberToken serializer (db w) token))) ∧
   ∀ o, findByRememberToken serializer (db w) token = Some o →
        user (snd (check serializer uuid (logout w))) = VObj o).
Proof.
  intros token.
  assert (session_get (sessionKey (logout w)) (logout w) = PUndefined) as S.
  { unfold session_get, logout, _removeSession, sessionKey. simpl.
    by rewrite lookup_delete_eq. }
  assert (request_cookie (remeberTokenKey (logout w)) (logout w) = token) as T
    by done.
  assert (db (logout w) = db w) as D by done.
  split; intros Ht; unfold check; rewrite S, T, Ht, ?D; simpl; [done|].
  destruct (findByRememberToken serializer (db w) token) as [o|]; simpl.
  - split; [done|]. intros o' [= <-]. by apply login_detached_user.
  - split; [done|]. by intros o'.
Qed.

(** X9: [check] answers [true] exactly when the guard has a user when it
    returns, and asking again changes nothing: a second [check] gives the
    same answer and the same state. [getUser] returns the user of that
    state. *)
Theorem check_idempotent w :
  let w' := snd (check serializer uuid w) in
  check serializer uuid w = (Returned (truthy (user w')), w') ∧
  check serializer uuid w' = (Returned (truthy (user w')), w') ∧
  getUser serializer uuid w = (Returned (user w'), w').
Proof.
  intros w'. subst w'.
  assert (check serializer uuid w
          = (Returned (truthy (user (snd (check serializer uuid w)))),
             snd (check serializer uuid w))) as C.
  { unfold check.
    destruct (truthy (user w)) eqn:Hu; simpl; [by rewrite Hu|].
    destruct (truthy_prim (session_get (sessionKey w) w)); simpl; [done|].
    destruct (truthy_prim (request_cookie (remeberTokenKey w) w)); simpl;
      [|by rewrite Hu].
    destruct (findByRememberToken serializer (db w) _) as [o|]; simpl;
      [|by rewrite Hu].
    by rewrite login_detached_user. }
  split; [done|]. split; [|unfold getUser; by rewrite C].
  revert C. generalize (snd (check serializer uuid w)). intros w' C.
  destruct (truthy (user w')) eqn:U.
  - unfold check. by rewrite U.
  - unfold check in C |- *. rewrite U.
    destruct (truthy (user w)) eqn:Hu; [by simplify_eq|].
    destruct (truthy_prim (session_get (sessionKey w) w)) eqn:S.
    { simplify_eq. simpl in *.
      change (session_get _ _) with (session_get (sessionKey w) w). rewrite S.
      simpl. by rewrite U. }
    destruct (truthy_prim (request_cookie (remeberTokenKey w) w)) eqn:T;
      [|simplify_eq; by rewrite S, T].
    destruct (findByRememberToken serializer (db w) _) as [o|] eqn:F;
      simpl in C; [done|].
    simplify_eq. by rewrite S, T, F.
Qed.

(** *** [attempt] *)

(** X10: [attempt] logs nobody in without the password: whenever it
    returns, the provider resolved [uid] to a user and verified the password
    against it, the guard had no user before, and what is returned and is
    now the guard's user is that user. *)
Theorem attempt_returned_verified (uid password : string) w r w' :
  attempt serializer uuid uid password w = (Returned r, w') →
  ∃ o, findByUid serializer (db w) uid = Some o ∧
       validateCredentails serializer (db w) (VObj o) password = true ∧
       r = VObj o ∧ user w' = VObj o ∧
       truthy (user w) = false.
Proof.
  unfold attempt, validate.
  destruct (findByUid serializer (db w) uid) as [o|]; simpl; [|done].
  destruct (validateCredentails serializer (db w) (VObj o) password) eqn:V;
    simpl; [|done].
  intros L. destruct (login_returned_object _ _ _ _ L) as (o' & E & -> & U & A & _).
  simplify_eq. by exists o'.
Qed.

(** *** What the methods keep *)

Ltac unfold_scheme :=
  unfold after, getUser, check, login_detached, loginViaId, attempt, login,
    validate, logout, remember, resume, login_start, login_finish,
    _setSession, _removeSession, Resetable.pull, Resetable.set,
    Resetable.clear, Resetable.get.

(** X11: a guard that has a user keeps that user until [logout]: no other
    method, and no resumed [login], replaces or removes it. *)
Theorem after_keeps_user (e : event) w :
  truthy (user w) = true →
  e ≠ ev_logout →
  user (after serializer mslib uuid e w) = user w.
Proof.
  intros Hu He. destruct e; try done; unfold_scheme; rewrite ?Hu; simpl;
    repeat (case_match; simpl); simplify_eq; simpl; try done; congruence.
Qed.

Lemma after_own_keys (e : event) w (k : string) :
  (k ≠ sessionKey w →
   session (after serializer mslib uuid e w) !! k = session w !! k) ∧
  (k ≠ remeberTokenKey w →
   response_cookies (after serializer mslib uuid e w) !! k
   = response_cookies w !! k).
Proof.
  unfold sessionKey, remeberTokenKey.
  destruct e; unfold_scheme; unfold sessionKey, remeberTokenKey;
    repeat (simpl; case_match); simplify_eq; simpl;
    (split; intros Hk;
     rewrite ?lookup_insert_ne, ?lookup_delete_ne by done; done).
Qed.

(** X12: the guard writes the session and the response under its own two
    keys only: over any sequence of calls (and resumed logins), every other
    key of the session and every other cookie of the response is as it
    was. *)
Theorem run_own_keys (es : list event) w (k : string) :
  (k ≠ sessionKey w →
   session (run serializer mslib uuid es w) !! k = session w !! k) ∧
  (k ≠ remeberTokenKey w →
   response_cookies (run serializer mslib uuid es w) !! k
   = response_cookies w !! k).
Proof.
  revert w. induction es as [|e es IH]; intros w; [done|].
  change (run serializer mslib uuid (e :: es) w)
    with (run serializer mslib uuid es (after serializer mslib uuid e w)).
  destruct (after_untouched serializer mslib uuid e w) as (_ & _ & C & _).
  destruct (IH (after serializer mslib uuid e w)) as [S R].
  destruct (after_own_keys e w k) as [S' R'].
  unfold sessionKey, remeberTokenKey in *. rewrite C in S, R.
  split; intros Hk; [rewrite S, S'|rewrite R, R']; done.
Qed.

(** X13: with no duration pending, [check] mints no remember token on any
    of its paths: a re-login from the remember cookie draws no identifier,
    has the provider save nothing and writes no cookie, so the token the
    client holds is not renewed. *)
Theorem check_mints_nothing w :
  truthy (pending w) = false →
  nothing_minted w (snd (check serializer uuid w)).
Proof.
  intros P. unfold nothing_minted, check. cbv zeta.
  destruct (truthy (user w)) eqn:Hu; [by repeat split|].
  destruct (truthy_prim (session_get (sessionKey w) w)); [by repeat split|].
  destruct (truthy_prim (request_cookie (remeberTokenKey w) w)); [|by repeat split].
  destruct (findByRememberToken serializer (db w) _) as [o|]; simpl;
    [|by repeat split].
  unfold login_detached.
  destruct (truthy_prim (key_of serializer o)) eqn:K.
  - rewrite (login_start_plain _ _ (VObj o) w (key_of serializer o)); [|done..].
    unfold _setSession. simpl. by repeat split.
  - rewrite (login_start_missingUid _ _ (VObj o) w (key_of serializer o)); [|done..].
    by repeat split.
Qed.

(** X14: after a [login] that returned, [check] answers [true] and
    [getUser] returns the user just logged in, both without a look-up and
    without changing the state. *)
Theorem login_then_getUser u w r w' :
  login serializer uuid u w = (Returned r, w') →
  check serializer uuid w' = (Returned true, w') ∧
  getUser serializer uuid w' = (Returned u, w').
Proof.
  intros L. destruct (login_returned_object _ _ _ _ L) as (o & -> & _ & U & _).
  unfold getUser, check. rewrite U. simpl. by rewrite U.
Qed.

(** X15: [remember] keeps the last value given. For an argument other than
    [0] and [false], a second call that returns leaves the state the call
    alone would leave, whatever an earlier call set; a second call that
    throws ([ms] refusing the string) leaves what the earlier call set. *)
Theorem remember_last_wins (d1 d2 : value) w :
  strict_eq d2 (PNum 0) = false →
  strict_eq d2 (PBool false) = false →
  remember mslib d2 (snd (remember mslib d1 w))
  = match remember mslib d2 w with
    | (Returned r, w2) => (Returned r, w2)
    | (Threw e, _) => (Threw e, snd (remember mslib d1 w))
    end.
Proof.
  intros H0 Hf.
  assert (∀ w1,
            Resetable.initialValue (_rememberTokenDuration w1)
            = Resetable.initialValue (_rememberTokenDuration w) →
            (∀ r, with_duration r w1 = with_duration r w) →
            remember mslib d2 w1
            = match remember mslib d2 w with
              | (Returned r, w2) => (Returned r, w2)
              | (Threw e, _) => (Threw e, w1)
              end) as E.
  { intros w1 Hi Hw. unfold remember, Resetable.set. rewrite H0, Hf, Hi. simpl.
    rewrite (ms_5y mslib).
    destruct (strict_eq d2 (PBool true) || strict_eq d2 (PNum 1));
      [by rewrite Hw|].
    destruct (is_string d2) as [s|]; [|by rewrite Hw].
    destruct (ms mslib s); [by rewrite Hw|done]. }
  apply E; unfold remember; rewrite (ms_5y mslib);
    destruct (strict_eq d1 (PBool true) || strict_eq d1 (PNum 1)); try done;
    destruct (is_string d1) as [s|];
    try (by destruct (ms mslib s));
    by destruct (negb (strict_eq d1 (PNum 0)) && negb (strict_eq d1 (PBool false))).
Qed.

End Further.

(** ** The further properties on the concrete environment *)

Lemma keys_never_empty_witness :
  let w := {| user := null; viaRemember := false;
              _rememberTokenDuration := Resetable.new (VPrim (PNum 0));
              _config := {| cfg_uid := "email"; cfg_sessionKey := Some "";
                            cfg_rememberMeToken := Some "remember-me" |};
              db := Demo.rows; session := ∅; request_cookies := ∅;
              response_cookies := ∅; uuid_drawn := 0%nat; suspended := [] |} in
  sessionKey w = "adonis-auth" ∧ remeberTokenKey w = "remember-me".
Proof.
  intros w.
  destruct (keys_never_empty w) as (_ & _ & S & R & _).
  split; [exact (S "" eq_refl)|exact (R "remember-me" eq_refl)].
Defined.

Lemma login_returned_session_witness :
  login Demo.serializer Demo.uuid (VObj Demo.alice) Demo.anonymous
  = (Returned (VObj Demo.alice), Demo.logged_in) ∧
  ∃ o, VObj Demo.alice = VObj o ∧ user Demo.logged_in = VObj o ∧
       session_get (sessionKey Demo.logged_in) Demo.logged_in
       = key_of Demo.serializer o ∧
       truthy_prim (session_get (sessionKey Demo.logged_in) Demo.logged_in) = true.
Proof.
  assert (login Demo.serializer Demo.uuid (VObj Demo.alice) Demo.anonymous
          = (Returned (VObj Demo.alice), Demo.logged_in)) as L by reflexivity.
  split; [exact L|].
  destruct (login_returned_session Demo.serializer Demo.uuid _ _ _ _ L)
    as (o & E & _ & U & _ & _ & G & T & _).
  exists o. split; [exact E|]. split; [exact U|]. split; [exact G|exact T].
Defined.

Lemma login_remember_cookie_witness :
  truthy (user Demo.remembering) = false ∧
  truthy_prim (key_of Demo.serializer Demo.alice) = true ∧
  truthy (pending Demo.remembering) = true ∧
  fst (login Demo.serializer Demo.uuid (VObj Demo.alice) Demo.remembering)
  = Returned (VObj Demo.alice) ∧
  response_cookies
    (snd (login Demo.serializer Demo.uuid (VObj Demo.alice) Demo.remembering))
  = <[ "adonis-remember-token"
       := SetCookie (VPrim (PStr "uuid-0")) (VPrim (PNum 157788000000)) ]> ∅ ∧
  db (snd (login Demo.serializer Demo.uuid (VObj Demo.alice) Demo.remembering))
  = saveRememberToken Demo.serializer Demo.rows (VObj Demo.alice)
      (VPrim (PStr "uuid-0")).
Proof.
  split; [reflexivity|]. split; [reflexivity|]. split; [reflexivity|].
  destruct (login_remember_cookie Demo.serializer Demo.uuid Demo.alice
              Demo.remembering eq_refl eq_refl) as (R & _ & _ & C & D & _).
  split; [exact R|]. split; [exact C|exact D].
Defined.


Lemma login_after_logout_witness :
  truthy_prim (key_of Demo.serializer Demo.bob) = true ∧
  user Demo.logged_in = VObj Demo.alice ∧
  fst (login Demo.serializer Demo.uuid (VObj Demo.bob) (logout Demo.logged_in))
  = Returned (VObj Demo.bob) ∧
  session (snd (login Demo.serializer Demo.uuid (VObj Demo.bob)
                  (logout Demo.logged_in))) !! "adonis-auth"
  = Some (PNum 2).
Proof.
  split; [reflexivity|]. split; [reflexivity|].
  destruct (login_after_logout Demo.serializer Demo.uuid Demo.bob Demo.logged_in
              eq_refl) as (R & _ & S).
  split; [exact R|exact S].
Defined.

Lemma login_then_check_witness :
  login Demo.serializer Demo.uuid (VObj Demo.alice) Demo.anonymous
  = (Returned (VObj Demo.alice), Demo.logged_in) ∧
  check Demo.serializer Demo.uuid (Demo.fresh (session Demo.logged_in) ∅)
  = (Returned true,
     with_user (VObj Demo.alice) (Demo.fresh (session Demo.logged_in) ∅)).
Proof.
  assert (login Demo.serializer Demo.uuid (VObj Demo.alice) Demo.anonymous
          = (Returned (VObj Demo.alice), Demo.logged_in)) as L by reflexivity.
  split; [exact L|].
  exact (login_then_check Demo.serializer Demo.uuid Demo.alice Demo.anonymous
           (VObj Demo.alice) Demo.logged_in (Demo.fresh (session Demo.logged_in) ∅)
           L eq_refl eq_refl eq_refl).
Defined.

Lemma check_after_logout_witness :
  (request_cookies Demo.logged_in !! "adonis-remember-token" = None ∧
   check Demo.serializer Demo.uuid (logout Demo.logged_in)
   = (Returned false, logout Demo.logged_in)) ∧
  (request_cookies Demo.returning_bob !! "adonis-remember-token"
   = Some (PStr "bob-token") ∧
   fst (check Demo.serializer Demo.uuid (logout Demo.returning_bob))
   = Returned true ∧
   user (snd (check Demo.serializer Demo.uuid (logout Demo.returning_bob)))
   = VObj Demo.bob).
Proof.
  split.
  - split; [reflexivity|].
    exact (proj1 (check_after_logout Demo.serializer Demo.uuid Demo.logged_in)
             eq_refl).
  - split; [reflexivity|].
    destruct (proj2 (check_after_logout Demo.serializer Demo.uuid
                       Demo.returning_bob) eq_refl) as [R U].
    split; [exact R|exact (U Demo.bob eq_refl)].
Defined.

Lemma attempt_returned_verified_witness :
  attempt Demo.serializer Demo.uuid "alice" "correct-pw" Demo.anonymous
  = (Returned (VObj Demo.alice), Demo.logged_in) ∧
  ∃ o, findByUid Demo.serializer Demo.rows "alice" = Some o ∧
       validateCredentails Demo.serializer Demo.rows (VObj o) "correct-pw" = true ∧
       user Demo.logged_in = VObj o.
Proof.
  assert (attempt Demo.serializer Demo.uuid "alice" "correct-pw" Demo.anonymous
          = (Returned (VObj Demo.alice), Demo.logged_in)) as A by reflexivity.
  split; [exact A|].
  destruct (attempt_returned_verified Demo.serializer Demo.uuid _ _ _ _ _ A)
    as (o & F & V & _ & U & _).
  exists o. split; [exact F|]. split; [exact V|exact U].
Defined.

Lemma after_keeps_user_witness :
  truthy (user Demo.logged_in) = true ∧
  user (after Demo.serializer Demo.mslib Demo.uuid (ev_login (VObj Demo.bob))
          Demo.logged_in) = VObj Demo.alice ∧
  user (after Demo.serializer Demo.mslib Demo.uuid ev_check Demo.logged_in)
  = VObj Demo.alice.
Proof.
  split; [reflexivity|]. split.
  - exact (after_keeps_user Demo.serializer Demo.mslib Demo.uuid
             (ev_login (VObj Demo.bob)) Demo.logged_in eq_refl
             ltac:(discriminate)).
  - exact (after_keeps_user Demo.serializer Demo.mslib Demo.uuid
             ev_check Demo.logged_in eq_refl ltac:(discriminate)).
Defined.

Lemma run_own_keys_witness :
  let w := Demo.fresh {[ "cart" := PNum 7 ]} ∅ in
  let es := [ev_remember (VPrim (PBool true)); ev_login (VObj Demo.alice);
             ev_logout] in
  session (run Demo.serializer Demo.mslib Demo.uuid es w) !! "cart"
  = Some (PNum 7) ∧
  response_cookies (run Demo.serializer Demo.mslib Demo.uuid es w) !! "theme"
  = None.
Proof.
  intros w es.
  destruct (run_own_keys Demo.serializer Demo.mslib Demo.uuid es w "cart")
    as [S _].
  destruct (run_own_keys Demo.serializer Demo.mslib Demo.uuid es w "theme")
    as [_ R].
  split; [exact (S ltac:(discriminate))|exact (R ltac:(discriminate))].
Defined.

Lemma check_mints_nothing_witness :
  truthy (pending Demo.returning_bob) = false ∧
  fst (check Demo.serializer Demo.uuid Demo.returning_bob) = Returned true ∧
  nothing_minted Demo.returning_bob
    (snd (check Demo.serializer Demo.uuid Demo.returning_bob)).
Proof.
  split; [reflexivity|]. split; [reflexivity|].
  exact (check_mints_nothing Demo.serializer Demo.uuid Demo.returning_bob eq_refl).
Defined.

Lemma login_then_getUser_witness :
  login Demo.serializer Demo.uuid (VObj Demo.alice) Demo.anonymous
  = (Returned (VObj Demo.alice), Demo.logged_in) ∧
  check Demo.serializer Demo.uuid Demo.logged_in = (Returned true, Demo.logged_in) ∧
  getUser Demo.serializer Demo.uuid Demo.logged_in
  = (Returned (VObj Demo.alice), Demo.logged_in).
Proof.
  assert (login Demo.serializer Demo.uuid (VObj Demo.alice) Demo.anonymous
          = (Returned (VObj Demo.alice), Demo.logged_in)) as L by reflexivity.
  split; [exact L|].
  exact (login_then_getUser Demo.serializer Demo.uuid _ _ _ _ L).
Defined.

Lemma remember_last_wins_witness :
  pending (snd (remember Demo.mslib (VPrim (PStr "1h")) Demo.anonymous))
  = VPrim (PNum 3600000) ∧
  remember Demo.mslib (VPrim (PBool true))
    (snd (remember Demo.mslib (VPrim (PStr "1h")) Demo.anonymous))
  = (Returned tt, Demo.remembering) ∧
  remember Demo.mslib (VPrim (PStr ""))
    (snd (remember Demo.mslib (VPrim (PStr "1h")) Demo.anonymous))
  = (Threw (Error "val is not a non-empty string or a valid number"),
     snd (remember Demo.mslib (VPrim (PStr "1h")) Demo.anonymous)).
Proof.
  split; [reflexivity|]. split.
  - exact (remember_last_wins Demo.mslib (VPrim (PStr "1h")) (VPrim (PBool true))
             Demo.anonymous eq_refl eq_refl).
  - exact (remember_last_wins Demo.mslib (VPrim (PStr "1h")) (VPrim (PStr ""))
             Demo.anonymous eq_refl eq_refl).
Defined.
